(** * Organisations and their locations: the repository and the API routes

    A shallow embedding of [app/infrastructure/organisations_repository.py]
    and [app/api/routes/organisations.py].

    The program is a thin layer over an ORM session: two tables, five
    repository functions, five routes.  The embedding keeps that shape:
    - the persistence store is a pair of finite maps from primary key to the
      remaining columns of a row;
    - a session is the store it is bound to, the Python objects it knows
      about (a heap indexed by reference) and the references added but not
      yet flushed;
    - code that uses the session runs in a state-and-exception monad [M];
    - the statement built by [select(...).where(...)] is a small syntax tree
      that the session evaluates against the [location] table.

    Numbers.  Python [int] is [Z].  Python [float] coordinates are modelled
    by the rational number a finite float denotes ([Qc], rationals in
    lowest terms): the program only stores, returns and compares them, and
    on finite values the comparisons of the store are the order of the
    rationals.  NaN and the infinities are outside the model. *)

From Stdlib Require Import QArith Qcanon.
From stdpp Require Import gmap strings list fin_maps numbers.

Local Open Scope Z_scope.

(** ** The entities of [app.models] *)

(** Modelled from the spec: [app/models.py] is not among the sources.  An
    Organisation has a server-generated integer primary key [id] (absent
    until the row is inserted) and a [name]. *)
Module Organisation.
Record t : Type := Build { id : option Z; name : string }.
End Organisation.

(** Modelled from the spec: [app/models.py] is not among the sources.  A
    Location has a server-generated integer primary key [id], the
    [organisation_id] it is attached to, a [location_name] and two
    floating-point coordinates. *)
Module Location.
Record t : Type := Build {
  id : option Z;
  organisation_id : Z;
  location_name : string;
  longitude : Qc;
  latitude : Qc
}.
End Location.

(** The request bodies [CreateOrganisation] and [CreateLocation]. *)
Module CreateOrganisation.
Record t : Type := Build { name : string }.
End CreateOrganisation.

Module CreateLocation.
Record t : Type := Build {
  organisation_id : Z;
  location_name : string;
  longitude : Qc;
  latitude : Qc
}.
End CreateLocation.

(** ** The persistence store *)

(** The columns of a [location] row other than its primary key. *)
Record location_row : Type := LocationRow {
  row_organisation_id : Z;
  row_location_name : string;
  row_longitude : Qc;
  row_latitude : Qc
}.

(** Two tables, each a finite map from primary key to the other columns;
    the only other column of [organisation] is the name. *)
Record Database : Type := Build_Database {
  organisation : gmap Z string;
  location : gmap Z location_row
}.

Definition empty_database : Database := Build_Database ∅ ∅.

(** The largest primary key in use, 0 for an empty table. *)
Definition max_rowid {A} (table : gmap Z A) : Z :=
  map_fold (λ k _ acc, Z.max k acc) 0 table.

(** Modelled from the spec: the key generator belongs to the store, which
    is not among the sources ("server-generated, unique").  A new row gets
    the key after the largest one in use, as an integer primary key does. *)
Definition next_rowid {A} (table : gmap Z A) : Z := 1 + max_rowid table.

(** The ORM objects loaded from a row. *)
Definition load_organisation (k : Z) (n : string) : Organisation.t :=
  Organisation.Build (Some k) n.

Definition load_location (k : Z) (r : location_row) : Location.t :=
  Location.Build (Some k) (row_organisation_id r) (row_location_name r)
    (row_longitude r) (row_latitude r).

Definition location_columns (l : Location.t) : location_row :=
  LocationRow (Location.organisation_id l) (Location.location_name l)
    (Location.longitude l) (Location.latitude l).

(** ** Sessions, and the monad of code that uses one *)

(** A Python object of one of the two mapped classes. *)
Inductive instance : Type :=
  | AnOrganisation (o : Organisation.t)
  | ALocation (l : Location.t).

(** References to Python objects: positions in the heap of the session. *)
Definition ref : Type := nat.

Record Session : Type := Build_Session {
  bind : Database;          (* the store the session talks to *)
  objects : list instance;  (* the objects, by reference *)
  new : list ref            (* added, not yet flushed *)
}.

(** What Python code can raise here. *)
Inductive exn : Type :=
  | HTTPException (status_code : Z) (detail : string)
  | RequestValidationError
  | InvalidRequestError
  | IntegrityError.

Inductive outcome (A : Type) : Type :=
  | Returned (a : A)
  | Raised (e : exn).
Arguments Returned {A} a.
Arguments Raised {A} e.

Definition M (A : Type) : Type := Session → outcome A * Session.

#[global] Instance M_ret : MRet M := λ A a s, (Returned a, s).

#[global] Instance M_bind : MBind M := λ A B f m s,
  match m s with
  | (Returned a, s') => f a s'
  | (Raised e, s') => (Raised e, s')
  end.

Definition raise {A} (e : exn) : M A := λ s, (Raised e, s).

(** A read of the session that changes nothing. *)
Definition gets {A} (f : Session → A) : M A := λ s, (Returned (f s), s).

(** [for x in l: body x]. *)
Fixpoint for_each {A} (l : list A) (body : A → M unit) : M unit :=
  match l with
  | [] => mret tt
  | x :: l' => body x ≫= λ _, for_each l' body
  end.

(** [[f x for x in l]] when [f] uses the session. *)
Fixpoint map_M {A B} (f : A → M B) (l : list A) : M (list B) :=
  match l with
  | [] => mret []
  | x :: l' => y ← f x; ys ← map_M f l'; mret (y :: ys)
  end.

(** Calling a mapped class builds a fresh object. *)
Definition construct (o : instance) : M ref := λ s,
  (Returned (length (objects s)),
   Build_Session (bind s) (objects s ++ [o]) (new s)).

Definition set_object (r : ref) (o : instance) : M unit := λ s,
  (Returned tt, Build_Session (bind s) (<[r := o]> (objects s)) (new s)).

Definition set_database (db : Database) : M unit := λ s,
  (Returned tt, Build_Session db (objects s) (new s)).

(** [session.add(obj)]. *)
Definition Session_add (r : ref) : M unit := λ s,
  (Returned tt, Build_Session (bind s) (objects s) (new s ++ [r])).

(** INSERT of one pending object: a row is written under the key the object
    carries, or under a generated one, and the object learns its key. *)
Definition insert_object (r : ref) : M unit :=
  o ← gets (λ s, objects s !! r);
  db ← gets bind;
  match o with
  | None => raise InvalidRequestError
  | Some (AnOrganisation o) =>
      let k := default (next_rowid (organisation db)) (Organisation.id o) in
      match organisation db !! k with
      | Some _ => raise IntegrityError
      | None =>
          set_database
            (Build_Database (<[k := Organisation.name o]> (organisation db))
                            (location db));;
          set_object r
            (AnOrganisation (Organisation.Build (Some k) (Organisation.name o)))
      end
  | Some (ALocation l) =>
      let k := default (next_rowid (location db)) (Location.id l) in
      match location db !! k with
      | Some _ => raise IntegrityError
      | None =>
          set_database
            (Build_Database (organisation db)
                            (<[k := location_columns l]> (location db)));;
          set_object r
            (ALocation (Location.Build (Some k) (Location.organisation_id l)
                          (Location.location_name l) (Location.longitude l)
                          (Location.latitude l)))
      end
  end.

Definition clear_new : M unit := λ s,
  (Returned tt, Build_Session (bind s) (objects s) []).

(** [session.commit()]: the pending objects are inserted in the order they
    were added, and nothing is pending afterwards. *)
Definition Session_commit : M unit :=
  pending ← gets new;
  for_each pending insert_object;;
  clear_new.

(** [session.refresh(obj)]: the attributes of the object are read again
    from its row. *)
Definition Session_refresh (r : ref) : M unit :=
  o ← gets (λ s, objects s !! r);
  db ← gets bind;
  match o with
  | Some (AnOrganisation o) =>
      match Organisation.id o ≫= λ k, load_organisation k <$> organisation db !! k with
      | Some o' => set_object r (AnOrganisation o')
      | None => raise InvalidRequestError
      end
  | Some (ALocation l) =>
      match Location.id l ≫= λ k, load_location k <$> location db !! k with
      | Some l' => set_object r (ALocation l')
      | None => raise InvalidRequestError
      end
  | None => raise InvalidRequestError
  end.

(** [return obj] of an object of the expected class. *)
Definition the_organisation (r : ref) : M Organisation.t :=
  o ← gets (λ s, objects s !! r);
  match o with
  | Some (AnOrganisation o) => mret o
  | _ => raise InvalidRequestError
  end.

Definition the_location (r : ref) : M Location.t :=
  o ← gets (λ s, objects s !! r);
  match o with
  | Some (ALocation l) => mret l
  | _ => raise InvalidRequestError
  end.

(** The three reads below look at the tables only.  The program reads
    from sessions with nothing pending (each writer commits before it
    returns), so there is never anything to flush before a query; the
    facts about reads are stated for such sessions. *)

(** [session.get(Organisation, key)]. *)
Definition Session_get_Organisation (key : Z) (session : Session)
  : option Organisation.t :=
  load_organisation key <$> organisation (bind session) !! key.

(** [session.exec(select(Organisation)).all()], in the order of the store. *)
Definition Session_exec_select_Organisation (session : Session)
  : list Organisation.t :=
  (λ kr, load_organisation kr.1 kr.2) <$> map_to_list (organisation (bind session)).

(** ** Statements over the [location] table *)

(** Python values that are bound into a statement or put into a response. *)
Inductive value : Type :=
  | VInt (z : Z)
  | VFloat (q : Qc)
  | VStr (s : string).

#[global] Instance value_eq_dec : EqDecision value.
Proof. solve_decision. Defined.

Inductive column : Type :=
  | Location_id
  | Location_organisation_id
  | Location_location_name
  | Location_longitude
  | Location_latitude.

(** [column == v], [column >= v] and [column <= v]. *)
Inductive criterion : Type :=
  | Equals (c : column) (v : value)
  | AtLeast (c : column) (v : value)
  | AtMost (c : column) (v : value).

(** [select(Location.location_name, Location.longitude, Location.latitude)]
    with the criteria collected by the calls of [.where]. *)
Record Select : Type := Build_Select { whereclause : list criterion }.

Definition select_location_name_longitude_latitude : Select := Build_Select [].

(** [query.where(c1, ..., cn)]: the criteria are added to those present,
    all of them joined by AND. *)
Definition where_ (query : Select) (criteria : list criterion) : Select :=
  Build_Select (whereclause query ++ criteria).

(** A row of the result: the three selected columns. *)
Module Row.
Record t : Type := Build {
  location_name : string;
  longitude : Qc;
  latitude : Qc
}.
End Row.

Definition column_value (c : column) (k : Z) (r : location_row) : value :=
  match c with
  | Location_id => VInt k
  | Location_organisation_id => VInt (row_organisation_id r)
  | Location_location_name => VStr (row_location_name r)
  | Location_longitude => VFloat (row_longitude r)
  | Location_latitude => VFloat (row_latitude r)
  end.

(** The number an integer or a float denotes; text is not a number. *)
Definition numeric (v : value) : option Qc :=
  match v with
  | VInt z => Some (Qc_of_Z z)
  | VFloat q => Some q
  | VStr _ => None
  end.

(** Integers and floats compare by the number they denote; text is
    ordered with text only, and the program never orders text. *)
Definition value_eqb (a b : value) : bool :=
  match numeric a, numeric b with
  | Some x, Some y => bool_decide (x = y)
  | _, _ => bool_decide (a = b)
  end.

Definition value_leb (a b : value) : bool :=
  match numeric a, numeric b with
  | Some x, Some y => bool_decide (x ≤ y)%Qc
  | _, _ => false
  end.

Definition holds (k : Z) (r : location_row) (c : criterion) : bool :=
  match c with
  | Equals col v => value_eqb (column_value col k r) v
  | AtLeast col v => value_leb v (column_value col k r)
  | AtMost col v => value_leb (column_value col k r) v
  end.

Definition selected (query : Select) (kr : Z * location_row) : Prop :=
  forallb (holds kr.1 kr.2) (whereclause query) = true.

#[global] Instance selected_dec query kr : Decision (selected query kr).
Proof. unfold selected. apply _. Defined.

Definition project (kr : Z * location_row) : Row.t :=
  Row.Build (row_location_name kr.2) (row_longitude kr.2) (row_latitude kr.2).

(** [session.exec(query).all()]: the rows of the table that meet every
    criterion, in the order of the store, cut down to the selected columns. *)
Definition Session_exec_all (query : Select) (session : Session) : list Row.t :=
  project <$> filter (selected query) (map_to_list (location (bind session))).

(** ** app/infrastructure/organisations_repository.py *)

Module organisations_repository.

Definition create_organisation (name : string) : M Organisation.t :=
  organisation ← construct (AnOrganisation (Organisation.Build None name));
  Session_add organisation;;
  Session_commit;;
  Session_refresh organisation;;
  the_organisation organisation.

Definition get_organisations (session : Session) : list Organisation.t :=
  Session_exec_select_Organisation session.

Definition get_organisation_by_id (organisation_id : Z) (session : Session)
  : option Organisation.t :=
  Session_get_Organisation organisation_id session.

Definition create_location (organisation_id : Z) (location_name : string)
    (longitude latitude : Qc) : M Location.t :=
  location ← construct
    (ALocation (Location.Build None organisation_id location_name
                  longitude latitude));
  Session_add location;;
  Session_commit;;
  Session_refresh location;;
  the_location location.

(** [if bounding_box:] is taken by every 4-tuple, whatever its entries (a
    tuple is false only when empty), and skipped by [None]. *)
Definition get_locations_by_organisation_id (organisation_id : Z)
    (bounding_box : option (Qc * Qc * Qc * Qc)) (session : Session)
  : list (gmap string value) :=
  let query :=
    where_ select_location_name_longitude_latitude
      [Equals Location_organisation_id (VInt organisation_id)] in
  let query :=
    match bounding_box with
    | Some (min_lat, min_lon, max_lat, max_lon) =>
        where_ query
          [AtLeast Location_latitude (VFloat min_lat);
           AtMost Location_latitude (VFloat max_lat);
           AtLeast Location_longitude (VFloat min_lon);
           AtMost Location_longitude (VFloat max_lon)]
    | None => query
    end in
  let locations := Session_exec_all query session in
  (λ location,
     <["location_name" := VStr (Row.location_name location)]>
       (<["location_longitude" := VFloat (Row.longitude location)]>
          (<["location_latitude" := VFloat (Row.latitude location)]> ∅)))
    <$> locations.

End organisations_repository.

(** ** app/api/routes/organisations.py *)

Definition HTTP_200_OK : Z := 200.
Definition HTTP_404_NOT_FOUND : Z := 404.
Definition HTTP_422_UNPROCESSABLE_ENTITY : Z := 422.
Definition HTTP_500_INTERNAL_SERVER_ERROR : Z := 500.

(** A bounding box of integers handed to a parameter that expects floats:
    each bound denotes the same number. *)
Definition as_floats (box : Z * Z * Z * Z) : Qc * Qc * Qc * Qc :=
  let '(min_lat, min_lon, max_lat, max_lon) := box in
  (Qc_of_Z min_lat, Qc_of_Z min_lon, Qc_of_Z max_lat, Qc_of_Z max_lon).

Module routes.

Definition create_organisation (create_organisation : CreateOrganisation.t)
  : M Organisation.t :=
  organisation ← organisations_repository.create_organisation
                   (CreateOrganisation.name create_organisation);
  mret organisation.

Definition get_organisations : M (list Organisation.t) :=
  organisations ← gets organisations_repository.get_organisations;
  mret organisations.

Definition get_organisation (organisation_id : Z) : M Organisation.t :=
  organisation ← gets (organisations_repository.get_organisation_by_id organisation_id);
  match organisation with
  | None => raise (HTTPException HTTP_404_NOT_FOUND "Organisation not found")
  | Some organisation => mret organisation
  end.

Definition create_location (create_location : CreateLocation.t) : M Location.t :=
  location ← organisations_repository.create_location
               (CreateLocation.organisation_id create_location)
               (CreateLocation.location_name create_location)
               (CreateLocation.longitude create_location)
               (CreateLocation.latitude create_location);
  mret location.

(** The parameter is declared [Optional[Tuple[int, int, int, int]]]. *)
Definition get_organisation_locations (organisation_id : Z)
    (bounding_box : option (Z * Z * Z * Z)) : M (list (gmap string value)) :=
  result ← gets (organisations_repository.get_locations_by_organisation_id
                   organisation_id (as_floats <$> bounding_box));
  mret result.

End routes.

(** ** The framework around a route *)

(** Modelled from the spec: [app/db.py] is not among the sources.  Every
    request gets a session of its own on the store ("one session per
    request, acquired at request start and released at request end"); what
    the request committed stays in the store. *)
Definition Depends_get_db {A} (endpoint : M A) (db : Database)
  : outcome A * Database :=
  let '(response, session) := endpoint (Build_Session db [] []) in
  (response, bind session).

(** Modelled from the spec: the status of a response is the framework's
    ("successful operations return 200"; an [HTTPException] carries its
    own status; rejected input is 422; anything else is a server error). *)
Definition status_code_of {A} (response : outcome A) : Z :=
  match response with
  | Returned _ => HTTP_200_OK
  | Raised (HTTPException status_code _) => status_code
  | Raised RequestValidationError => HTTP_422_UNPROCESSABLE_ENTITY
  | Raised _ => HTTP_500_INTERNAL_SERVER_ERROR
  end.

(** Modelled from the spec: the request-validation layer is the
    framework's ("type coercion of body/query/path values").  A number of
    the query is taken for a parameter declared [int] when it is an integer,
    and the request is rejected otherwise. *)
Definition as_int (q : Qc) : option Z :=
  if decide (Qden q = 1%positive) then Some (Qnum q) else None.

Definition validate_bounding_box (query_values : option (list Qc))
  : outcome (option (Z * Z * Z * Z)) :=
  match query_values with
  | None => Returned None
  | Some [a; b; c; d] =>
      match as_int a, as_int b, as_int c, as_int d with
      | Some min_lat, Some min_lon, Some max_lat, Some max_lon =>
          Returned (Some (min_lat, min_lon, max_lat, max_lon))
      | _, _, _, _ => Raised RequestValidationError
      end
  | Some _ => Raised RequestValidationError
  end.

(** [GET /{organisation_id}/locations] as a client sees it: the values of
    [bounding_box] in the query are validated against the declared type,
    then the route runs on a session of its own. *)
Definition GET_organisation_locations (organisation_id : Z)
    (query_values : option (list Qc)) (db : Database)
  : outcome (list (gmap string value)) * Database :=
  match validate_bounding_box query_values with
  | Returned bounding_box =>
      Depends_get_db (routes.get_organisation_locations organisation_id bounding_box) db
  | Raised e => (Raised e, db)
  end.

(** ** The vocabulary of the specification *)

(** The entry of a response for a location: its name and coordinates under
    the three keys of the API. *)
Definition location_entry (location_name : string) (longitude latitude : Qc)
  : gmap string value :=
  {[ "location_name" := VStr location_name;
     "location_longitude" := VFloat longitude;
     "location_latitude" := VFloat latitude ]}.

Definition entry_of_row (kr : Z * location_row) : gmap string value :=
  location_entry (row_location_name kr.2) (row_longitude kr.2) (row_latitude kr.2).

(** The closed rectangle [[min_lat, max_lat] × [min_lon, max_lon]]. *)
Definition in_bounding_box (box : Qc * Qc * Qc * Qc) (latitude longitude : Qc)
  : Prop :=
  let '(min_lat, min_lon, max_lat, max_lon) := box in
  (min_lat ≤ latitude ∧ latitude ≤ max_lat)%Qc ∧
  (min_lon ≤ longitude ∧ longitude ≤ max_lon)%Qc.

#[global] Instance in_bounding_box_dec box latitude longitude :
  Decision (in_bounding_box box latitude longitude).
Proof. destruct box as [[[??]?]?]. unfold in_bounding_box. apply _. Defined.

(** The stored location belongs to the organisation and, when a box is
    given, lies in it. *)
Definition wanted (organisation_id : Z) (bounding_box : option (Qc * Qc * Qc * Qc))
    (kr : Z * location_row) : Prop :=
  row_organisation_id kr.2 = organisation_id ∧
  match bounding_box with
  | Some box => in_bounding_box box (row_latitude kr.2) (row_longitude kr.2)
  | None => True
  end.

#[global] Instance wanted_dec organisation_id bounding_box kr :
  Decision (wanted organisation_id bounding_box kr).
Proof. unfold wanted. destruct bounding_box; apply _. Defined.

(** The invariant of the data model that the store may or may not enforce:
    every location is attached to an organisation that exists. *)
Definition referential_integrity (db : Database) : Prop :=
  map_Forall (λ _ r, is_Some (organisation db !! row_organisation_id r))
    (location db).

#[global] Instance referential_integrity_dec db : Decision (referential_integrity db).
Proof. unfold referential_integrity. apply _. Defined.

(** A session with nothing pending, as every function of the repository
    finds it and leaves it. *)
Definition nothing_pending (session : Session) : Prop := new session = [].

(** ** Stores used as examples *)

(** The store of [test_get_locations_with_bounding_box]: one organisation
    and its three locations. *)
Definition bounding_box_store : Database :=
  Build_Database
    {[ 1 := "Organisation with Bounding Box" ]}
    {[ 1 := LocationRow 1 "Location A" (Qc_of_Z 10) (Qc_of_Z 20);
       2 := LocationRow 1 "Location B" (Qc_of_Z 15) (Qc_of_Z 25);
       3 := LocationRow 1 "Location C" (Qc_of_Z 30) (Qc_of_Z 35) ]}.

(** A store with no organisation, and one location attached to the
    organisation 42 all the same. *)
Definition orphan_store : Database :=
  Build_Database ∅ {[ 1 := LocationRow 42 "Depot" (Qc_of_Z 4) (Qc_of_Z 52) ]}.

(** Ten and a half, a bound that is not an integer. *)
Definition ten_and_a_half : Qc := Q2Qc (21 # 2).

(** ** The router *)

(** The five operations of the router, with the parameters the framework
    hands to the route: [POST /create], [GET /], [GET /{organisation_id}],
    [POST /create/locations] and [GET /{organisation_id}/locations]. *)
Inductive request : Type :=
  | PostCreate (body : CreateOrganisation.t)
  | GetOrganisations
  | GetOrganisation (organisation_id : Z)
  | PostCreateLocations (body : CreateLocation.t)
  | GetOrganisationLocations (organisation_id : Z)
      (bounding_box : option (Z * Z * Z * Z)).

(** What a route returns, by route. *)
Inductive content : Type :=
  | OneOrganisation (organisation : Organisation.t)
  | Organisations (organisations : list Organisation.t)
  | OneLocation (location : Location.t)
  | Entries (result : list (gmap string value)).

Definition outcome_map {A B} (f : A → B) (response : outcome A) : outcome B :=
  match response with
  | Returned a => Returned (f a)
  | Raised e => Raised e
  end.

(** The router calls the route of the request on a session of its own. *)
Definition router (req : request) (db : Database) : outcome content * Database :=
  match req with
  | PostCreate body =>
      prod_map (outcome_map OneOrganisation) id
        (Depends_get_db (routes.create_organisation body) db)
  | GetOrganisations =>
      prod_map (outcome_map Organisations) id
        (Depends_get_db routes.get_organisations db)
  | GetOrganisation organisation_id =>
      prod_map (outcome_map OneOrganisation) id
        (Depends_get_db (routes.get_organisation organisation_id) db)
  | PostCreateLocations body =>
      prod_map (outcome_map OneLocation) id
        (Depends_get_db (routes.create_location body) db)
  | GetOrganisationLocations organisation_id bounding_box =>
      prod_map (outcome_map Entries) id
        (Depends_get_db
           (routes.get_organisation_locations organisation_id bounding_box) db)
  end.

(** Requests served one after the other, each on the store the one before
    left. *)
Fixpoint serve (requests : list request) (db : Database)
  : list (outcome content) * Database :=
  match requests with
  | [] => ([], db)
  | req :: requests' =>
      let '(response, db') := router req db in
      let '(responses, db'') := serve requests' db' in
      (response :: responses, db'')
  end.

Definition creates_organisation (req : request) : bool :=
  match req with PostCreate _ => true | _ => false end.

Definition creates_location (req : request) : bool :=
  match req with PostCreateLocations _ => true | _ => false end.

(** Every location the requests create is attached to an organisation that
    exists when the request is served. *)
Fixpoint addressed (requests : list request) (db : Database) : Prop :=
  match requests with
  | [] => True
  | req :: requests' =>
      match req with
      | PostCreateLocations body =>
          is_Some (organisation db !! CreateLocation.organisation_id body)
      | _ => True
      end ∧ addressed requests' (router req db).2
  end.

(** The box [inner] lies within the box [outer]. *)
Definition box_within (inner outer : Qc * Qc * Qc * Qc) : Prop :=
  let '(min_lat, min_lon, max_lat, max_lon) := inner in
  let '(min_lat', min_lon', max_lat', max_lon') := outer in
  (min_lat' ≤ min_lat ∧ max_lat ≤ max_lat')%Qc ∧
  (min_lon' ≤ min_lon ∧ max_lon ≤ max_lon')%Qc.

(** The requests of [test_get_locations_with_bounding_box] up to the query. *)
Definition requests_of_the_test : list request :=
  [PostCreate (CreateOrganisation.Build "Organisation with Bounding Box");
   PostCreateLocations (CreateLocation.Build 1 "Location A" (Qc_of_Z 10) (Qc_of_Z 20));
   PostCreateLocations (CreateLocation.Build 1 "Location B" (Qc_of_Z 15) (Qc_of_Z 25));
   PostCreateLocations (CreateLocation.Build 1 "Location C" (Qc_of_Z 30) (Qc_of_Z 35))].

(** No box is given, or the point lies in the box that is. *)
Definition admits (bounding_box : option (Qc * Qc * Qc * Qc))
    (latitude longitude : Qc) : Prop :=
  match bounding_box with
  | Some box => in_bounding_box box latitude longitude
  | None => True
  end.

#[global] Instance admits_dec bounding_box latitude longitude :
  Decision (admits bounding_box latitude longitude).
Proof. unfold admits. destruct bounding_box; apply _. Defined.

#[global] Instance addressed_dec requests db : Decision (addressed requests db).
Proof.
  revert db. induction requests as [|req requests IH]; intros db; simpl.
  - apply _.
  - destruct req; apply _.
Defined.

(** * Facts *)

(** ** Keys of the store *)

Lemma max_rowid_ge {A} (table : gmap Z A) k x :
  table !! k = Some x → k ≤ max_rowid table.
Proof.
  unfold max_rowid. revert k x.
  apply (map_fold_weak_ind (λ r (m : gmap Z A), ∀ k x, m !! k = Some x → k ≤ r)).
  - intros k x. by rewrite lookup_empty.
  - intros i y m r _ IH k x. rewrite lookup_insert.
    case_decide; [intros _; subst; lia|].
    intros Hk. specialize (IH _ _ Hk). lia.
Qed.

Lemma next_rowid_fresh {A} (table : gmap Z A) : table !! next_rowid table = None.
Proof.
  destruct (table !! next_rowid table) eqn:E; [|done].
  apply max_rowid_ge in E. unfold next_rowid in E. lia.
Qed.

(** ** Running code in [M] *)

Lemma bind_returned {A B} (m : M A) (f : A → M B) s a s' :
  m s = (Returned a, s') → (m ≫= f) s = f a s'.
Proof. intros H. unfold mbind, M_bind. by rewrite H. Qed.

Lemma bind_raised {A B} (m : M A) (f : A → M B) s e s' :
  m s = (Raised e, s') → (m ≫= f) s = (Raised e, s').
Proof. intros H. unfold mbind, M_bind. by rewrite H. Qed.

(** One statement of a [do]-block whose effect is known. *)
Ltac step := erewrite bind_returned by reflexivity.
Tactic Notation "step" "by" tactic3(tac) :=
  erewrite bind_returned by (unfold gets; tac).

Lemma lookup_snoc_length {A} (l : list A) x : (l ++ [x]) !! length l = Some x.
Proof. by rewrite lookup_app_r, Nat.sub_diag by lia. Qed.

Lemma insert_snoc_length {A} (l : list A) x y :
  <[length l := y]> (l ++ [x]) = l ++ [y].
Proof. by rewrite insert_app_r_alt, Nat.sub_diag by lia. Qed.

Lemma insert_object_organisation r name s :
  objects s !! r = Some (AnOrganisation (Organisation.Build None name)) →
  insert_object r s =
    (Returned tt,
     Build_Session
       (Build_Database
          (<[next_rowid (organisation (bind s)) := name]> (organisation (bind s)))
          (location (bind s)))
       (<[r := AnOrganisation
                 (Organisation.Build (Some (next_rowid (organisation (bind s)))) name)]>
          (objects s))
       (new s)).
Proof.
  intros Hr. unfold insert_object.
  step by (by rewrite Hr). step.
  simpl. rewrite next_rowid_fresh. by step.
Qed.

Lemma insert_object_location r l s :
  objects s !! r = Some (ALocation l) →
  Location.id l = None →
  insert_object r s =
    (Returned tt,
     Build_Session
       (Build_Database (organisation (bind s))
          (<[next_rowid (location (bind s)) := location_columns l]>
             (location (bind s))))
       (<[r := ALocation (load_location (next_rowid (location (bind s)))
                            (location_columns l))]>
          (objects s))
       (new s)).
Proof.
  intros Hr Hid. unfold insert_object.
  step by (by rewrite Hr). step.
  simpl. rewrite Hid. simpl. rewrite next_rowid_fresh. by step.
Qed.

Lemma Session_commit_one r s s' :
  new s = [r] →
  insert_object r s = (Returned tt, s') →
  Session_commit s = (Returned tt, Build_Session (bind s') (objects s') []).
Proof.
  intros Hnew Hins. unfold Session_commit.
  step by (by rewrite Hnew).
  erewrite bind_returned; [reflexivity|].
  simpl. by erewrite bind_returned by exact Hins.
Qed.

Lemma Session_refresh_organisation r k name n s :
  objects s !! r = Some (AnOrganisation (Organisation.Build (Some k) name)) →
  organisation (bind s) !! k = Some n →
  Session_refresh r s =
    (Returned tt,
     Build_Session (bind s)
       (<[r := AnOrganisation (load_organisation k n)]> (objects s)) (new s)).
Proof.
  intros Hr Hk. unfold Session_refresh.
  step by (by rewrite Hr). step.
  simpl. by rewrite Hk.
Qed.

Lemma Session_refresh_location r k l row s :
  objects s !! r = Some (ALocation l) →
  Location.id l = Some k →
  location (bind s) !! k = Some row →
  Session_refresh r s =
    (Returned tt,
     Build_Session (bind s)
       (<[r := ALocation (load_location k row)]> (objects s)) (new s)).
Proof.
  intros Hr Hid Hk. unfold Session_refresh.
  step by (by rewrite Hr). step.
  simpl. rewrite Hid. simpl. by rewrite Hk.
Qed.

(** ** What the two writers of the repository do *)

Lemma create_organisation_run name s :
  nothing_pending s →
  organisations_repository.create_organisation name s =
    (Returned (load_organisation (next_rowid (organisation (bind s))) name),
     Build_Session
       (Build_Database
          (<[next_rowid (organisation (bind s)) := name]> (organisation (bind s)))
          (location (bind s)))
       (objects s ++
          [AnOrganisation
             (load_organisation (next_rowid (organisation (bind s))) name)])
       []).
Proof.
  intros Hnew. unfold organisations_repository.create_organisation.
  step. step.
  erewrite bind_returned.
  2:{ eapply Session_commit_one; [simpl; by rewrite Hnew|].
      apply insert_object_organisation. simpl. apply lookup_snoc_length. }
  simpl. rewrite insert_snoc_length.
  erewrite bind_returned.
  2:{ eapply Session_refresh_organisation; simpl.
      - apply lookup_snoc_length.
      - apply lookup_insert_eq. }
  simpl. rewrite insert_snoc_length. unfold the_organisation.
  by step by (simpl; by rewrite lookup_snoc_length).
Qed.

Lemma create_location_run organisation_id location_name longitude latitude s :
  nothing_pending s →
  let row := LocationRow organisation_id location_name longitude latitude in
  let k := next_rowid (location (bind s)) in
  organisations_repository.create_location
    organisation_id location_name longitude latitude s =
    (Returned (load_location k row),
     Build_Session
       (Build_Database (organisation (bind s)) (<[k := row]> (location (bind s))))
       (objects s ++ [ALocation (load_location k row)])
       []).
Proof.
  intros Hnew row k. unfold organisations_repository.create_location.
  step. step.
  erewrite bind_returned.
  2:{ eapply Session_commit_one; [simpl; by rewrite Hnew|].
      apply insert_object_location; [simpl; apply lookup_snoc_length|done]. }
  simpl. rewrite insert_snoc_length.
  erewrite bind_returned.
  2:{ eapply Session_refresh_location; simpl.
      - apply lookup_snoc_length.
      - done.
      - apply lookup_insert_eq. }
  simpl. rewrite insert_snoc_length. unfold the_location.
  by step by (simpl; by rewrite lookup_snoc_length).
Qed.

(** ** What the query selects *)

Lemma value_eqb_int a b : value_eqb (VInt a) (VInt b) = true ↔ a = b.
Proof.
  unfold value_eqb. simpl. rewrite bool_decide_eq_true. apply Z2Qc_inj_iff.
Qed.

Lemma value_leb_float a b : value_leb (VFloat a) (VFloat b) = true ↔ (a ≤ b)%Qc.
Proof. unfold value_leb. simpl. apply bool_decide_eq_true. Qed.

(** The statement the function builds selects the wanted rows, and each
    is turned into its entry. *)
Lemma get_locations_by_organisation_id_filter organisation_id bounding_box session :
  organisations_repository.get_locations_by_organisation_id
    organisation_id bounding_box session =
  entry_of_row <$>
    filter (wanted organisation_id bounding_box)
      (map_to_list (location (bind session))).
Proof.
  unfold organisations_repository.get_locations_by_organisation_id, Session_exec_all.
  rewrite <- list_fmap_compose.
  erewrite list_filter_iff; [reflexivity|].
  intros [k r]. unfold selected, wanted, where_. simpl.
  destruct bounding_box as [[[[min_lat min_lon] max_lat] max_lon]|]; simpl.
  - rewrite !andb_true_iff, value_eqb_int, !value_leb_float. tauto.
  - rewrite !andb_true_iff, value_eqb_int. tauto.
Qed.

Lemma filter_none {A} (P : A → Prop) `{!∀ x, Decision (P x)} (l : list A) :
  (∀ x, x ∈ l → ¬ P x) → filter P l = [].
Proof.
  induction l as [|x l IH]; intros Hnone; [done|].
  rewrite filter_cons_False by (apply Hnone; constructor).
  apply IH. intros y Hy. apply Hnone. by constructor.
Qed.

(** ** Routes on a session of their own *)

Lemma Depends_get_db_gets {A} (read : Session → A) db :
  Depends_get_db (result ← gets read; mret result) db =
  (Returned (read (Build_Session db [] [])), db).
Proof. reflexivity. Qed.

Lemma get_organisation_locations_run organisation_id bounding_box db :
  Depends_get_db (routes.get_organisation_locations organisation_id bounding_box) db =
  (Returned (organisations_repository.get_locations_by_organisation_id
               organisation_id (as_floats <$> bounding_box)
               (Build_Session db [] [])),
   db).
Proof. apply Depends_get_db_gets. Qed.

Lemma get_organisation_run organisation_id db :
  Depends_get_db (routes.get_organisation organisation_id) db =
  (match organisation db !! organisation_id with
   | Some name => Returned (Organisation.Build (Some organisation_id) name)
   | None => Raised (HTTPException 404 "Organisation not found")
   end, db).
Proof.
  unfold Depends_get_db, routes.get_organisation.
  step. unfold organisations_repository.get_organisation_by_id,
    Session_get_Organisation. simpl.
  by destruct (organisation db !! organisation_id).
Qed.

(** ** Validation of the bounding box of a request *)

Lemma as_int_of_Z z : as_int (Qc_of_Z z) = Some z.
Proof. reflexivity. Qed.

Lemma as_int_Some q z : as_int q = Some z → q = Qc_of_Z z.
Proof.
  unfold as_int. destruct q as [[n d] Hcanon]. simpl.
  case_decide as Hd; [|done]. intros [= ->]. subst d.
  by apply Qc_is_canon.
Qed.

(** Integer bounds pass validation, and the route filters by them. *)
Lemma GET_organisation_locations_integers
    organisation_id min_lat min_lon max_lat max_lon db :
  GET_organisation_locations organisation_id
    (Some [Qc_of_Z min_lat; Qc_of_Z min_lon; Qc_of_Z max_lat; Qc_of_Z max_lon]) db =
  (Returned (organisations_repository.get_locations_by_organisation_id
               organisation_id
               (Some (Qc_of_Z min_lat, Qc_of_Z min_lon, Qc_of_Z max_lat, Qc_of_Z max_lon))
               (Build_Session db [] [])),
   db).
Proof.
  unfold GET_organisation_locations, validate_bounding_box.
  rewrite !as_int_of_Z. apply get_organisation_locations_run.
Qed.

(** Validation fails in one way only. *)
Lemma validate_bounding_box_raised query_values e :
  validate_bounding_box query_values = Raised e → e = RequestValidationError.
Proof.
  unfold validate_bounding_box.
  destruct query_values as [[|a [|b [|c [|d [|? ?]]]]]|]; try by intros [= <-].
  by destruct (as_int a), (as_int b), (as_int c), (as_int d); intros [= <-].
Qed.

(** A bound that is not an integer fails validation: the route does not
    run and nothing is filtered. *)
Lemma GET_organisation_locations_fraction organisation_id a b c d db :
  as_int a = None ∨ as_int b = None ∨ as_int c = None ∨ as_int d = None →
  GET_organisation_locations organisation_id (Some [a; b; c; d]) db =
  (Raised RequestValidationError, db).
Proof.
  unfold GET_organisation_locations. simpl.
  intros [H|[H|[H|H]]]; rewrite H;
    by destruct (as_int a), (as_int b), (as_int c), (as_int d).
Qed.

(** ** The list of organisations *)

#[global] Instance load_organisation_pair_inj :
  Inj (=) (=) (λ kr : Z * string, load_organisation kr.1 kr.2).
Proof. intros [k1 n1] [k2 n2] [= -> ->]. done. Qed.

Lemma get_organisations_ids session :
  Organisation.id <$> organisations_repository.get_organisations session =
  Some <$> (map_to_list (organisation (bind session))).*1.
Proof.
  unfold organisations_repository.get_organisations, Session_exec_select_Organisation.
  rewrite <- !list_fmap_compose. done.
Qed.

Lemma get_organisations_NoDup_ids session :
  NoDup (Organisation.id <$> organisations_repository.get_organisations session).
Proof.
  rewrite get_organisations_ids.
  apply NoDup_fmap_2; [apply _|]. apply NoDup_fst_map_to_list.
Qed.

Lemma get_organisations_after_create name s :
  nothing_pending s →
  ∃ created s',
    organisations_repository.create_organisation name s = (Returned created, s') ∧
    nothing_pending s' ∧
    location (bind s') = location (bind s) ∧
    Organisation.name created = name ∧
    organisations_repository.get_organisations s' ≡ₚ
      created :: organisations_repository.get_organisations s.
Proof.
  intros Hnew. eexists _, _. split; [by apply create_organisation_run|].
  split; [done|]. split; [done|]. split; [done|].
  unfold organisations_repository.get_organisations,
    Session_exec_select_Organisation. simpl.
  rewrite map_to_list_insert by apply next_rowid_fresh. done.
Qed.

(** A run of creations on one session. *)
Lemma create_organisations_run names s :
  nothing_pending s →
  ∃ created s',
    map_M organisations_repository.create_organisation names s =
      (Returned created, s') ∧
    nothing_pending s' ∧
    location (bind s') = location (bind s) ∧
    Organisation.name <$> created = names ∧
    organisations_repository.get_organisations s' ≡ₚ
      created ++ organisations_repository.get_organisations s.
Proof.
  revert s. induction names as [|name names IH]; intros s Hnew.
  - by exists [], s.
  - destruct (get_organisations_after_create name s Hnew)
      as (o & s1 & Hrun1 & Hnew1 & Hloc1 & Hname1 & Hlist1).
    destruct (IH s1 Hnew1) as (os & s2 & Hrun2 & Hnew2 & Hloc2 & Hnames2 & Hlist2).
    exists (o :: os), s2. split.
    { simpl. erewrite bind_returned by exact Hrun1.
      by erewrite bind_returned by exact Hrun2. }
    split; [done|]. split; [congruence|].
    split; [by rewrite fmap_cons, Hname1, Hnames2|].
    rewrite Hlist2, Hlist1. by rewrite <- Permutation_middle.
Qed.

(** ** The list of locations, after a location is stored or removed *)

Lemma entries_insert organisation_id bounding_box k r db objs objs' :
  location db !! k = None →
  organisations_repository.get_locations_by_organisation_id organisation_id bounding_box
    (Build_Session (Build_Database (organisation db) (<[k := r]> (location db)))
       objs' [])
  ≡ₚ
  (if decide (wanted organisation_id bounding_box (k, r))
   then [entry_of_row (k, r)] else []) ++
  organisations_repository.get_locations_by_organisation_id organisation_id bounding_box
    (Build_Session db objs []).
Proof.
  intros Hfresh. rewrite !get_locations_by_organisation_id_filter. simpl.
  rewrite map_to_list_insert by done. rewrite filter_cons.
  by destruct (decide (wanted organisation_id bounding_box (k, r))).
Qed.

Lemma entries_delete organisation_id bounding_box k r db objs pending :
  location db !! k = Some r →
  organisations_repository.get_locations_by_organisation_id organisation_id bounding_box
    (Build_Session db objs pending)
  ≡ₚ
  (if decide (wanted organisation_id bounding_box (k, r))
   then [entry_of_row (k, r)] else []) ++
  organisations_repository.get_locations_by_organisation_id organisation_id bounding_box
    (Build_Session (Build_Database (organisation db) (delete k (location db)))
       objs pending).
Proof.
  intros Hstored. rewrite !get_locations_by_organisation_id_filter. simpl.
  rewrite <- (map_to_list_delete _ _ _ Hstored). rewrite filter_cons.
  by destruct (decide (wanted organisation_id bounding_box (k, r))).
Qed.

(** * The claims *)

(** ** Reading the locations of an organisation *)

(** C1.  Given a bounding box [(min_lat, min_lon, max_lat, max_lon)],
    [get_locations_by_organisation_id] returns exactly the stored locations
    of the organisation whose latitude is in [[min_lat, max_lat]] and whose
    longitude is in [[min_lon, max_lon]], one entry for each, all four
    bounds included. *)
Theorem get_locations_by_organisation_id_bounding_box
    organisation_id min_lat min_lon max_lat max_lon db objs :
  organisations_repository.get_locations_by_organisation_id organisation_id
    (Some (min_lat, min_lon, max_lat, max_lon)) (Build_Session db objs []) =
  entry_of_row <$>
    filter (λ kr : Z * location_row,
              row_organisation_id kr.2 = organisation_id ∧
              (min_lat ≤ row_latitude kr.2 ∧ row_latitude kr.2 ≤ max_lat)%Qc ∧
              (min_lon ≤ row_longitude kr.2 ∧ row_longitude kr.2 ≤ max_lon)%Qc)
      (map_to_list (location db))
  ∧
  ∀ entry,
    entry ∈ organisations_repository.get_locations_by_organisation_id
              organisation_id (Some (min_lat, min_lon, max_lat, max_lon))
              (Build_Session db objs [])
    ↔
    ∃ k r,
      location db !! k = Some r ∧
      row_organisation_id r = organisation_id ∧
      (min_lat ≤ row_latitude r ∧ row_latitude r ≤ max_lat)%Qc ∧
      (min_lon ≤ row_longitude r ∧ row_longitude r ≤ max_lon)%Qc ∧
      entry = location_entry (row_location_name r) (row_longitude r) (row_latitude r).
Proof.
  split.
  - apply get_locations_by_organisation_id_filter.
  - intros entry. rewrite get_locations_by_organisation_id_filter.
    rewrite list_elem_of_fmap. split.
    + intros [[k r] [-> [Hwanted Hin]%list_elem_of_filter]].
      apply elem_of_map_to_list in Hin.
      destruct Hwanted as [Horg [Hlat Hlon]]. simpl in *. by exists k, r.
    + intros (k & r & Hin & Horg & Hlat & Hlon & ->).
      exists (k, r). split; [done|].
      apply list_elem_of_filter. split; [done|].
      by apply elem_of_map_to_list.
Qed.

(** The case the specification works out: of the locations at
    (lon 10, lat 20), (lon 15, lat 25) and (lon 30, lat 35), the box
    (10, 10, 25, 25) keeps the first two, which lie on its border. *)
Example bounding_box_of_the_test :
  organisations_repository.get_locations_by_organisation_id 1
    (Some (Qc_of_Z 10, Qc_of_Z 10, Qc_of_Z 25, Qc_of_Z 25))
    (Build_Session bounding_box_store [] [])
  ≡ₚ [location_entry "Location A" (Qc_of_Z 10) (Qc_of_Z 20);
      location_entry "Location B" (Qc_of_Z 15) (Qc_of_Z 25)].
Proof.
  assert (organisations_repository.get_locations_by_organisation_id 1
    (Some (Qc_of_Z 10, Qc_of_Z 10, Qc_of_Z 25, Qc_of_Z 25))
    (Build_Session bounding_box_store [] []) =
    [location_entry "Location B" (Qc_of_Z 15) (Qc_of_Z 25);
     location_entry "Location A" (Qc_of_Z 10) (Qc_of_Z 20)]) as ->
    by (vm_compute; reflexivity).
  apply Permutation_swap.
Qed.

(** C10.  A bounding box whose minimum latitude exceeds its maximum, or
    whose minimum longitude exceeds its maximum, selects nothing, whatever
    is stored. *)
Theorem get_locations_by_organisation_id_degenerate_box
    organisation_id min_lat min_lon max_lat max_lon db objs :
  (max_lat < min_lat ∨ max_lon < min_lon)%Qc →
  organisations_repository.get_locations_by_organisation_id organisation_id
    (Some (min_lat, min_lon, max_lat, max_lon)) (Build_Session db objs []) = [].
Proof.
  intros Hdegenerate. rewrite get_locations_by_organisation_id_filter.
  rewrite filter_none; [done|].
  intros [k r] _ [_ [[Hlat1 Hlat2] [Hlon1 Hlon2]]]. simpl in *.
  destruct Hdegenerate as [Hlt|Hlt].
  - apply (Qclt_not_le _ _ Hlt). by apply Qcle_trans with (row_latitude r).
  - apply (Qclt_not_le _ _ Hlt). by apply Qcle_trans with (row_longitude r).
Qed.

Lemma degenerate_box_witness :
  organisations_repository.get_locations_by_organisation_id 1
    (Some (Qc_of_Z 25, Qc_of_Z 10, Qc_of_Z 10, Qc_of_Z 25))
    (Build_Session bounding_box_store [] []) = [].
Proof.
  apply get_locations_by_organisation_id_degenerate_box.
  left. by apply Z2Qc_inj_lt.
Defined.

(** C7.  Every entry returned by [get_locations_by_organisation_id] has
    the three keys [location_name], [location_longitude] and
    [location_latitude] and no other; in particular neither [id] nor
    [organisation_id]. *)
Theorem get_locations_by_organisation_id_keys organisation_id bounding_box db objs :
  Forall (λ entry : gmap string value,
            dom entry =
              ({[ "location_name"; "location_longitude"; "location_latitude" ]}
                 : gset string) ∧
            entry !! "id" = None ∧ entry !! "organisation_id" = None ∧
            (∃ location_name longitude latitude,
               entry !! "location_name" = Some (VStr location_name) ∧
               entry !! "location_longitude" = Some (VFloat longitude) ∧
               entry !! "location_latitude" = Some (VFloat latitude)))
    (organisations_repository.get_locations_by_organisation_id
       organisation_id bounding_box (Build_Session db objs [])).
Proof.
  rewrite get_locations_by_organisation_id_filter.
  apply Forall_fmap, Forall_forall. intros [k r] _.
  unfold entry_of_row, location_entry. simpl.
  split; [|split; [|split]].
  - rewrite !dom_insert_L, dom_singleton_L. set_solver.
  - done.
  - done.
  - by eexists _, _, _.
Qed.

(** ** Getting one organisation *)

(** C2.  [GET /{organisation_id}] fails with status 404 and the detail
    "Organisation not found" exactly when no organisation has that id;
    when one has, it is returned with status 200. *)
Theorem get_organisation_not_found_iff_absent organisation_id db :
  ((Depends_get_db (routes.get_organisation organisation_id) db).1 =
     Raised (HTTPException 404 "Organisation not found")
   ↔ organisation db !! organisation_id = None) ∧
  (status_code_of (Depends_get_db (routes.get_organisation organisation_id) db).1 = 404
   ↔ organisation db !! organisation_id = None) ∧
  (∀ name,
     organisation db !! organisation_id = Some name
     ↔ (Depends_get_db (routes.get_organisation organisation_id) db).1 =
         Returned (Organisation.Build (Some organisation_id) name)) ∧
  (status_code_of (Depends_get_db (routes.get_organisation organisation_id) db).1 = 200
   ↔ is_Some (organisation db !! organisation_id)) ∧
  (Depends_get_db (routes.get_organisation organisation_id) db).2 = db.
Proof.
  rewrite get_organisation_run. simpl.
  destruct (organisation db !! organisation_id) as [name|]; simpl;
    repeat split; try done; try (intros [= ->]; done);
    try (intros [? [=]]); eauto.
Qed.

(** The case of the tests: the id 99999 was never issued. *)
Example get_organisation_99999 :
  Depends_get_db (routes.get_organisation 99999) bounding_box_store =
  (Raised (HTTPException 404 "Organisation not found"), bounding_box_store).
Proof. by rewrite get_organisation_run. Qed.

(** ** Listing locations through the route *)

(** C3, as the claim states it, fails: the store reached from the empty
    one by a single [create_location] for the organisation 42 has no
    organisation 42, and the list of locations of 42 is not empty. *)
Lemma locations_of_an_absent_organisation :
  (Depends_get_db
     (routes.create_location
        (CreateLocation.Build 42 "Depot" (Qc_of_Z 4) (Qc_of_Z 52)))
     empty_database).2 = orphan_store ∧
  organisation orphan_store !! 42 = None ∧
  Depends_get_db (routes.get_organisation_locations 42 None) orphan_store =
    (Returned [location_entry "Depot" (Qc_of_Z 4) (Qc_of_Z 52)], orphan_store) ∧
  ¬ (∀ organisation_id db,
       organisation db !! organisation_id = None →
       (Depends_get_db (routes.get_organisation_locations organisation_id None) db).1 =
         Returned []).
Proof.
  assert (Depends_get_db (routes.get_organisation_locations 42 None) orphan_store =
    (Returned [location_entry "Depot" (Qc_of_Z 4) (Qc_of_Z 52)], orphan_store)) as Hlist
    by (vm_compute; reflexivity).
  split; [by vm_compute|]. split; [done|]. split; [done|].
  intros Hclaim. specialize (Hclaim 42 orphan_store eq_refl).
  rewrite Hlist in Hclaim. discriminate Hclaim.
Qed.

(** C3, amended.  For an id that no stored location is attached to,
    [GET /{organisation_id}/locations] returns the empty sequence, for
    every bounding box of the declared type and for every request whose
    bounding box passes validation; in a store where every location is
    attached to an existing organisation, that is the case of every id
    that matches no organisation.  Whatever the id, the store and the
    values of the query, the response is never a 404. *)
Theorem get_organisation_locations_unmatched_id organisation_id db :
  (map_Forall (λ _ r, row_organisation_id r ≠ organisation_id) (location db) →
   (∀ bounding_box,
      Depends_get_db
        (routes.get_organisation_locations organisation_id bounding_box) db =
      (Returned [], db)) ∧
   (∀ query_values bounding_box,
      validate_bounding_box query_values = Returned bounding_box →
      GET_organisation_locations organisation_id query_values db =
      (Returned [], db))) ∧
  (referential_integrity db →
   organisation db !! organisation_id = None →
   (∀ bounding_box,
      Depends_get_db
        (routes.get_organisation_locations organisation_id bounding_box) db =
      (Returned [], db)) ∧
   (∀ query_values bounding_box,
      validate_bounding_box query_values = Returned bounding_box →
      GET_organisation_locations organisation_id query_values db =
      (Returned [], db))) ∧
  (∀ query_values,
     status_code_of
       (GET_organisation_locations organisation_id query_values db).1 ≠ 404 ∧
     ∀ status_code detail,
       (GET_organisation_locations organisation_id query_values db).1 ≠
       Raised (HTTPException status_code detail)).
Proof.
  assert (map_Forall (λ _ r, row_organisation_id r ≠ organisation_id) (location db) →
          (∀ bounding_box,
             Depends_get_db
               (routes.get_organisation_locations organisation_id bounding_box) db =
             (Returned [], db)) ∧
          (∀ query_values bounding_box,
             validate_bounding_box query_values = Returned bounding_box →
             GET_organisation_locations organisation_id query_values db =
             (Returned [], db))) as Hnone.
  { intros Hall.
    assert (∀ bounding_box,
      Depends_get_db
        (routes.get_organisation_locations organisation_id bounding_box) db =
      (Returned [], db)) as Hroute.
    { intros bounding_box. rewrite get_organisation_locations_run.
      rewrite get_locations_by_organisation_id_filter, filter_none; [done|].
      intros [k r] Hin%elem_of_map_to_list [Horg _]. by apply (Hall k r). }
    split; [done|]. intros query_values bounding_box Hvalid.
    unfold GET_organisation_locations. rewrite Hvalid. apply Hroute. }
  split; [done|]. split.
  - intros Hintegrity Habsent. apply Hnone.
    intros k r Hr Horg. destruct (Hintegrity k r Hr) as [name Hname].
    simpl in Hname. rewrite Horg in Hname. congruence.
  - intros query_values. unfold GET_organisation_locations.
    destruct (validate_bounding_box query_values) as [bounding_box|e] eqn:Hvalid.
    + rewrite get_organisation_locations_run. by split.
    + apply validate_bounding_box_raised in Hvalid as ->. by split.
Qed.

Lemma get_organisation_locations_99999 :
  GET_organisation_locations 99999
    (Some [Qc_of_Z 10; Qc_of_Z 10; Qc_of_Z 25; Qc_of_Z 25]) bounding_box_store =
  (Returned [], bounding_box_store).
Proof.
  destruct (get_organisation_locations_unmatched_id 99999 bounding_box_store)
    as (_ & Hunmatched & _).
  destruct Hunmatched as [_ Hrequest].
  - apply (bool_decide_unpack (referential_integrity bounding_box_store)).
    by vm_compute.
  - reflexivity.
  - apply (Hrequest _ (Some (10, 10, 25, 25))). reflexivity.
Defined.

(** C4 at an input where it fails.  The box (20.5, 10, 25, 25) keeps
    "Location B" only when the repository is asked; the route, whose
    parameter is a tuple of [int], rejects the request instead. *)
Theorem bounding_box_with_a_fraction :
  as_int (Q2Qc (41 # 2)) = None ∧
  organisations_repository.get_locations_by_organisation_id 1
    (Some (Q2Qc (41 # 2), Qc_of_Z 10, Qc_of_Z 25, Qc_of_Z 25))
    (Build_Session bounding_box_store [] []) =
    [location_entry "Location B" (Qc_of_Z 15) (Qc_of_Z 25)] ∧
  GET_organisation_locations 1
    (Some [Q2Qc (41 # 2); Qc_of_Z 10; Qc_of_Z 25; Qc_of_Z 25])
    bounding_box_store =
    (Raised RequestValidationError, bounding_box_store) ∧
  status_code_of
    (GET_organisation_locations 1
       (Some [Q2Qc (41 # 2); Qc_of_Z 10; Qc_of_Z 25; Qc_of_Z 25])
       bounding_box_store).1 = 422.
Proof.
  split; [done|]. split; [by vm_compute|].
  rewrite GET_organisation_locations_fraction by (by left). done.
Qed.

(** ** Creating a location *)

(** C9.  [create_location] inserts the row and returns the location for
    every [organisation_id]: the [organisation] table is left as it is,
    the response and the new row are the same whatever that table holds,
    and so no error is raised when it has no such organisation. *)
Theorem create_location_checks_no_organisation (body : CreateLocation.t) db :
  Depends_get_db (routes.create_location body) db =
  (Returned
     (Location.Build (Some (next_rowid (location db)))
        (CreateLocation.organisation_id body)
        (CreateLocation.location_name body)
        (CreateLocation.longitude body)
        (CreateLocation.latitude body)),
   Build_Database (organisation db)
     (<[next_rowid (location db) :=
          LocationRow (CreateLocation.organisation_id body)
            (CreateLocation.location_name body)
            (CreateLocation.longitude body)
            (CreateLocation.latitude body)]> (location db))) ∧
  location db !! next_rowid (location db) = None ∧
  ∀ organisations,
    (Depends_get_db (routes.create_location body)
       (Build_Database organisations (location db))).1 =
    (Depends_get_db (routes.create_location body) db).1 ∧
    location (Depends_get_db (routes.create_location body)
                (Build_Database organisations (location db))).2 =
    location (Depends_get_db (routes.create_location body) db).2.
Proof.
  assert (∀ db', Depends_get_db (routes.create_location body) db' =
    (Returned
       (load_location (next_rowid (location db'))
          (LocationRow (CreateLocation.organisation_id body)
             (CreateLocation.location_name body)
             (CreateLocation.longitude body)
             (CreateLocation.latitude body))),
     Build_Database (organisation db')
       (<[next_rowid (location db') :=
            LocationRow (CreateLocation.organisation_id body)
              (CreateLocation.location_name body)
              (CreateLocation.longitude body)
              (CreateLocation.latitude body)]> (location db')))) as Hrun.
  { intros db'. unfold Depends_get_db, routes.create_location.
    by erewrite bind_returned by (by apply create_location_run). }
  split; [apply Hrun|]. split; [apply next_rowid_fresh|].
  intros organisations. by rewrite !Hrun.
Qed.

(** ** Creating organisations, then listing them *)

(** C5.  After [create_organisation] is called with the names N1..Nk on an
    empty store, [get_organisations] returns k organisations, their names
    are N1..Nk up to order, and their generated ids are pairwise distinct
    (so two creations with one name give two rows with two ids). *)
Theorem created_organisations_are_listed (names : list string) :
  ∃ created session,
    map_M organisations_repository.create_organisation names
      (Build_Session empty_database [] []) = (Returned created, session) ∧
    Organisation.name <$> created = names ∧
    organisations_repository.get_organisations session ≡ₚ created ∧
    length (organisations_repository.get_organisations session) = length names ∧
    Organisation.name <$> organisations_repository.get_organisations session
      ≡ₚ names ∧
    Forall (λ o, is_Some (Organisation.id o))
      (organisations_repository.get_organisations session) ∧
    NoDup (Organisation.id <$> organisations_repository.get_organisations session) ∧
    NoDup (Organisation.id <$> created).
Proof.
  destruct (create_organisations_run names (Build_Session empty_database [] []) eq_refl)
    as (created & session & Hrun & _ & _ & Hnames & Hlist).
  assert (organisations_repository.get_organisations session ≡ₚ created) as Hperm.
  { rewrite Hlist. unfold organisations_repository.get_organisations,
      Session_exec_select_Organisation at 1. simpl.
    rewrite map_to_list_empty. simpl. by rewrite app_nil_r. }
  exists created, session. split; [done|]. split; [done|]. split; [done|].
  split; [by rewrite Hperm, <- Hnames, length_fmap|].
  split; [by rewrite Hperm, Hnames|].
  split.
  { unfold organisations_repository.get_organisations,
      Session_exec_select_Organisation.
    apply Forall_fmap, Forall_forall. intros [k n] _. by eexists. }
  split; [apply get_organisations_NoDup_ids|].
  rewrite <- Hperm. apply get_organisations_NoDup_ids.
Qed.

(** Two creations with the same name. *)
Example same_name_twice :
  (map_M organisations_repository.create_organisation ["Acme"; "Acme"]
     (Build_Session empty_database [] [])).1 =
  Returned [Organisation.Build (Some 1) "Acme"; Organisation.Build (Some 2) "Acme"].
Proof. by vm_compute. Qed.

(** ** Creating a location, then listing *)

(** C6.  [create_location] returns a location with the organisation id,
    name, longitude and latitude it was given, and the list of locations
    of that organisation then has an entry with that name and those
    coordinates (also under a bounding box that contains them). *)
Theorem create_location_round_trip
    organisation_id location_name longitude latitude db objs :
  ∃ k session',
    organisations_repository.create_location
      organisation_id location_name longitude latitude (Build_Session db objs []) =
      (Returned (Location.Build (Some k) organisation_id location_name
                   longitude latitude), session') ∧
    new session' = [] ∧
    location_entry location_name longitude latitude ∈
      organisations_repository.get_locations_by_organisation_id
        organisation_id None session' ∧
    ∀ box,
      in_bounding_box box latitude longitude →
      location_entry location_name longitude latitude ∈
        organisations_repository.get_locations_by_organisation_id
          organisation_id (Some box) session'.
Proof.
  eexists _, _.
  split; [by apply create_location_run|]. split; [done|]. simpl.
  assert (∀ bounding_box session',
    wanted organisation_id bounding_box
      (next_rowid (location db),
       LocationRow organisation_id location_name longitude latitude) →
    location (bind session') =
      <[next_rowid (location db) :=
          LocationRow organisation_id location_name longitude latitude]>
        (location db) →
    location_entry location_name longitude latitude ∈
      organisations_repository.get_locations_by_organisation_id
        organisation_id bounding_box session') as Hlisted.
  { intros bounding_box session' Hwanted Hstored.
    rewrite get_locations_by_organisation_id_filter, Hstored.
    apply list_elem_of_fmap.
    exists (next_rowid (location db),
            LocationRow organisation_id location_name longitude latitude).
    split; [reflexivity|].
    apply list_elem_of_filter. split; [done|].
    apply elem_of_map_to_list, lookup_insert_eq. }
  split.
  - by apply Hlisted.
  - intros box Hbox. by apply Hlisted.
Qed.

(** ** Isolation of organisations *)

(** C8.  For distinct organisations A and B, a location created under A
    changes nothing in the list of locations of B, and a stored location
    of A can be removed from the store without changing that list, with
    or without a bounding box. *)
Theorem locations_of_another_organisation_stay_out
    (A B : Z) location_name longitude latitude bounding_box db objs :
  A ≠ B →
  (∃ created session',
     organisations_repository.create_location
       A location_name longitude latitude (Build_Session db objs []) =
       (Returned created, session') ∧
     Location.organisation_id created = A ∧
     new session' = [] ∧
     organisations_repository.get_locations_by_organisation_id B bounding_box session'
     ≡ₚ
     organisations_repository.get_locations_by_organisation_id B bounding_box
       (Build_Session db objs [])) ∧
  (∀ k r,
     location db !! k = Some r →
     row_organisation_id r = A →
     organisations_repository.get_locations_by_organisation_id B bounding_box
       (Build_Session db objs [])
     ≡ₚ
     organisations_repository.get_locations_by_organisation_id B bounding_box
       (Build_Session (Build_Database (organisation db) (delete k (location db)))
          objs [])).
Proof.
  intros Hdistinct. split.
  - eexists _, _. split; [by apply create_location_run|].
    split; [done|]. split; [done|].
    simpl. rewrite (entries_insert _ _ _ _ _ objs) by apply next_rowid_fresh.
    rewrite decide_False; [done|]. by intros [Horg _].
  - intros k r Hstored Horg.
    rewrite (entries_delete _ _ _ _ _ _ _ Hstored).
    rewrite decide_False; [done|]. intros [HorgB _]. simpl in HorgB. congruence.
Qed.

Lemma a_location_elsewhere_witness :
  ∃ created session',
    organisations_repository.create_location
      2 "Location D" (Qc_of_Z 12) (Qc_of_Z 22)
      (Build_Session bounding_box_store [] []) = (Returned created, session') ∧
    Location.organisation_id created = 2 ∧
    new session' = [] ∧
    organisations_repository.get_locations_by_organisation_id 1 None session'
    ≡ₚ
    organisations_repository.get_locations_by_organisation_id 1 None
      (Build_Session bounding_box_store [] []).
Proof.
  apply (proj1 (locations_of_another_organisation_stay_out
                  2 1 "Location D" (Qc_of_Z 12) (Qc_of_Z 22) None
                  bounding_box_store [] ltac:(lia))).
Defined.

(** ** Further properties of the specification *)

(** X2.  The organisation that [POST /create] returns is the one that
    [GET /{organisation_id}] returns for its id afterwards. *)
Theorem get_organisation_after_create (body : CreateOrganisation.t) db :
  ∃ created db',
    Depends_get_db (routes.create_organisation body) db = (Returned created, db') ∧
    Organisation.name created = CreateOrganisation.name body ∧
    Organisation.id created = Some (next_rowid (organisation db)) ∧
    Depends_get_db (routes.get_organisation (next_rowid (organisation db))) db' =
      (Returned created, db').
Proof.
  eexists _, _. split.
  { unfold Depends_get_db, routes.create_organisation.
    by erewrite bind_returned by (by apply create_organisation_run). }
  split; [done|]. split; [done|].
  rewrite get_organisation_run. simpl. by rewrite lookup_insert_eq.
Qed.

(** X3.  Without a bounding box, [get_locations_by_organisation_id] returns
    exactly the stored locations of the organisation, one entry for each. *)
Theorem get_locations_by_organisation_id_all organisation_id db objs :
  organisations_repository.get_locations_by_organisation_id organisation_id None
    (Build_Session db objs []) =
  entry_of_row <$>
    filter (λ kr : Z * location_row, row_organisation_id kr.2 = organisation_id)
      (map_to_list (location db)).
Proof.
  rewrite get_locations_by_organisation_id_filter. simpl.
  f_equal. apply list_filter_iff. intros kr. unfold wanted. tauto.
Qed.

(** * Further properties of the code *)

(** ** The writers on a session of their own *)

Lemma create_organisation_request_run body db :
  Depends_get_db (routes.create_organisation body) db =
  (Returned (load_organisation (next_rowid (organisation db))
               (CreateOrganisation.name body)),
   Build_Database
     (<[next_rowid (organisation db) := CreateOrganisation.name body]>
        (organisation db))
     (location db)).
Proof.
  unfold Depends_get_db, routes.create_organisation.
  by erewrite bind_returned by (by apply create_organisation_run).
Qed.

Lemma create_location_request_run body db :
  Depends_get_db (routes.create_location body) db =
  (Returned
     (load_location (next_rowid (location db))
        (LocationRow (CreateLocation.organisation_id body)
           (CreateLocation.location_name body)
           (CreateLocation.longitude body)
           (CreateLocation.latitude body))),
   Build_Database (organisation db)
     (<[next_rowid (location db) :=
          LocationRow (CreateLocation.organisation_id body)
            (CreateLocation.location_name body)
            (CreateLocation.longitude body)
            (CreateLocation.latitude body)]> (location db))).
Proof.
  unfold Depends_get_db, routes.create_location.
  by erewrite bind_returned by (by apply create_location_run).
Qed.

(** ** One request *)

(** The store a request leaves. *)
Lemma router_store req db :
  (router req db).2 =
  match req with
  | PostCreate body =>
      Build_Database
        (<[next_rowid (organisation db) := CreateOrganisation.name body]>
           (organisation db))
        (location db)
  | PostCreateLocations body =>
      Build_Database (organisation db)
        (<[next_rowid (location db) :=
             LocationRow (CreateLocation.organisation_id body)
               (CreateLocation.location_name body)
               (CreateLocation.longitude body)
               (CreateLocation.latitude body)]> (location db))
  | _ => db
  end.
Proof.
  destruct req; unfold router, prod_map.
  - by rewrite create_organisation_request_run.
  - done.
  - by rewrite get_organisation_run.
  - by rewrite create_location_request_run.
  - by rewrite get_organisation_locations_run.
Qed.

Lemma serve_cons req requests db :
  serve (req :: requests) db =
  ((router req db).1 :: (serve requests (router req db).2).1,
   (serve requests (router req db).2).2).
Proof.
  cbn [serve]. destruct (router req db) as [response db']. cbn [fst snd].
  by destruct (serve requests db') as [responses db''].
Qed.

Lemma filter_sublist_impl {A} (P Q : A → Prop)
    `{!∀ x, Decision (P x), !∀ x, Decision (Q x)} (l : list A) :
  (∀ x, P x → Q x) → filter P l `sublist_of` filter Q l.
Proof.
  intros Himpl. induction l as [|x l IH]; [done|].
  rewrite !filter_cons.
  destruct (decide (P x)) as [HP|HP].
  - rewrite decide_True by auto. by apply sublist_skip.
  - destruct (decide (Q x)); [by apply sublist_cons|done].
Qed.

(** ** Creating an organisation *)

(** X4.  [POST /create] never fails: it returns the organisation with the
    given name under an id that no organisation had, the store gains that
    one row, and the locations are left as they were. *)
Theorem create_organisation_adds_one_row (body : CreateOrganisation.t) db :
  ∃ k,
    organisation db !! k = None ∧
    Depends_get_db (routes.create_organisation body) db =
    (Returned (Organisation.Build (Some k) (CreateOrganisation.name body)),
     Build_Database (<[k := CreateOrganisation.name body]> (organisation db))
       (location db)) ∧
    size (organisation (Depends_get_db (routes.create_organisation body) db).2) =
      S (size (organisation db)).
Proof.
  exists (next_rowid (organisation db)).
  split; [apply next_rowid_fresh|].
  rewrite create_organisation_request_run. split; [done|]. simpl.
  apply map_size_insert_None, next_rowid_fresh.
Qed.

(** X5.  Creating an organisation changes no other answer: an id that had
    an organisation still gets it, the list of organisations is the old one
    and the new organisation, and every list of locations is the same. *)
Theorem create_organisation_changes_no_answer (body : CreateOrganisation.t) db :
  let db' := (Depends_get_db (routes.create_organisation body) db).2 in
  (∀ organisation_id,
     is_Some (organisation db !! organisation_id) →
     Depends_get_db (routes.get_organisation organisation_id) db' =
     ((Depends_get_db (routes.get_organisation organisation_id) db).1, db')) ∧
  (∃ created,
     (Depends_get_db (routes.create_organisation body) db).1 = Returned created ∧
     organisations_repository.get_organisations (Build_Session db' [] []) ≡ₚ
       created :: organisations_repository.get_organisations (Build_Session db [] [])) ∧
  (∀ organisation_id bounding_box,
     Depends_get_db
       (routes.get_organisation_locations organisation_id bounding_box) db' =
     ((Depends_get_db
         (routes.get_organisation_locations organisation_id bounding_box) db).1,
      db')).
Proof.
  rewrite create_organisation_request_run. simpl. split; [|split].
  - intros organisation_id [name Hname].
    rewrite !get_organisation_run. simpl.
    rewrite lookup_insert_ne; [done|].
    intros <-. by rewrite next_rowid_fresh in Hname.
  - eexists. split; [done|].
    unfold organisations_repository.get_organisations,
      Session_exec_select_Organisation. simpl.
    by rewrite map_to_list_insert by apply next_rowid_fresh.
  - intros organisation_id bounding_box.
    rewrite !get_organisation_locations_run. simpl.
    by rewrite !get_locations_by_organisation_id_filter.
Qed.

(** ** The commit inside a writer *)

(** X6.  [create_location] commits the session it is given: an
    organisation that the caller had added to the session and not yet
    committed is inserted as well, and the caller's object learns its id. *)
Theorem create_location_commits_what_is_pending
    db objs r name organisation_id location_name longitude latitude :
  objs !! r = Some (AnOrganisation (Organisation.Build None name)) →
  ∃ session',
    organisations_repository.create_location
      organisation_id location_name longitude latitude
      (Build_Session db objs [r]) =
    (Returned (Location.Build (Some (next_rowid (location db)))
                 organisation_id location_name longitude latitude),
     session') ∧
    bind session' =
      Build_Database
        (<[next_rowid (organisation db) := name]> (organisation db))
        (<[next_rowid (location db) :=
             LocationRow organisation_id location_name longitude latitude]>
           (location db)) ∧
    objects session' !! r =
      Some (AnOrganisation
              (Organisation.Build (Some (next_rowid (organisation db))) name)) ∧
    new session' = [].
Proof.
  intros Hr. pose proof (lookup_lt_Some _ _ _ Hr) as Hlt.
  set (o' := AnOrganisation
               (Organisation.Build (Some (next_rowid (organisation db))) name)).
  set (row := LocationRow organisation_id location_name longitude latitude).
  assert (length (<[r := o']> objs) = length objs) as Hlen by apply length_insert.
  exists (Build_Session
            (Build_Database
               (<[next_rowid (organisation db) := name]> (organisation db))
               (<[next_rowid (location db) := row]> (location db)))
            (<[r := o']> objs ++
               [ALocation (load_location (next_rowid (location db)) row)])
            []).
  split.
  - unfold organisations_repository.create_location.
    step. step.
    erewrite bind_returned.
    2:{ unfold Session_commit. step. simpl.
        erewrite bind_returned; [reflexivity|].
        erewrite bind_returned.
        2:{ apply insert_object_organisation. simpl.
            rewrite lookup_app_l by done. exact Hr. }
        simpl. rewrite insert_app_l by done. fold o'.
        erewrite bind_returned.
        2:{ apply insert_object_location.
            - simpl. rewrite <- Hlen. apply lookup_snoc_length.
            - done. }
        reflexivity. }
    simpl. fold row. rewrite <- Hlen. rewrite insert_snoc_length.
    erewrite bind_returned.
    2:{ eapply Session_refresh_location; simpl.
        - apply lookup_snoc_length.
        - done.
        - apply lookup_insert_eq. }
    simpl. rewrite insert_snoc_length.
    unfold the_location.
    step by (simpl; by rewrite lookup_snoc_length).
    reflexivity.
  - simpl. split; [done|]. split; [|done].
    rewrite lookup_app_l by (by rewrite Hlen).
    by apply list_lookup_insert_eq.
Qed.

Lemma create_location_commits_what_is_pending_witness :
  ∃ session',
    organisations_repository.create_location 1 "Depot" (Qc_of_Z 4) (Qc_of_Z 52)
      (Build_Session empty_database
         [AnOrganisation (Organisation.Build None "Acme")] [0%nat]) =
    (Returned (Location.Build (Some (next_rowid (location empty_database)))
                 1 "Depot" (Qc_of_Z 4) (Qc_of_Z 52)),
     session') ∧
    bind session' =
      Build_Database
        (<[next_rowid (organisation empty_database) := "Acme"]>
           (organisation empty_database))
        (<[next_rowid (location empty_database) :=
             LocationRow 1 "Depot" (Qc_of_Z 4) (Qc_of_Z 52)]>
           (location empty_database)) ∧
    objects session' !! 0%nat =
      Some (AnOrganisation
              (Organisation.Build
                 (Some (next_rowid (organisation empty_database))) "Acme")) ∧
    new session' = [].
Proof.
  apply (create_location_commits_what_is_pending empty_database
           [AnOrganisation (Organisation.Build None "Acme")] 0%nat "Acme"
           1 "Depot" (Qc_of_Z 4) (Qc_of_Z 52)).
  reflexivity.
Defined.

(** ** The list of organisations and the lookup by id *)

(** X7.  [get_organisations] and [get_organisation_by_id] agree: an
    organisation is in the list exactly when the lookup of its id returns
    it; the lookup of an id without a row returns nothing, and raises
    nothing. *)
Theorem listed_iff_found_by_id db objs (o : Organisation.t) :
  (o ∈ organisations_repository.get_organisations (Build_Session db objs [])
   ↔
   ∃ k, Organisation.id o = Some k ∧
        organisations_repository.get_organisation_by_id k (Build_Session db objs [])
        = Some o) ∧
  (∀ k,
     organisations_repository.get_organisation_by_id k (Build_Session db objs [])
     = None
     ↔ ∀ o', o' ∈ organisations_repository.get_organisations
                    (Build_Session db objs []) →
             Organisation.id o' ≠ Some k).
Proof.
  unfold organisations_repository.get_organisations,
    organisations_repository.get_organisation_by_id,
    Session_exec_select_Organisation, Session_get_Organisation. simpl.
  split.
  - rewrite list_elem_of_fmap. split.
    + intros [[k name] [-> Hin%elem_of_map_to_list]]. exists k. simpl.
      split; [done|]. by rewrite Hin.
    + intros (k & Hid & Hget).
      destruct (organisation db !! k) as [name|] eqn:Hk; [|done].
      injection Hget as <-. exists (k, name). split; [done|].
      by apply elem_of_map_to_list.
  - intros k. split.
    + intros Hnone o' [[k' name] [-> Hin%elem_of_map_to_list]]%list_elem_of_fmap.
      simpl. intros [= ->]. by rewrite Hin in Hnone.
    + intros Hall. destruct (organisation db !! k) as [name|] eqn:Hk; [|done].
      exfalso. apply (Hall (load_organisation k name)); [|done].
      apply list_elem_of_fmap. exists (k, name). split; [done|].
      by apply elem_of_map_to_list.
Qed.

(** ** What a bounding box does to the list *)

(** X8.  A bounding box only removes entries: the list under any box is a
    sublist of the list without a box. *)
Theorem bounding_box_only_removes organisation_id box db objs :
  organisations_repository.get_locations_by_organisation_id
    organisation_id (Some box) (Build_Session db objs [])
  `sublist_of`
  organisations_repository.get_locations_by_organisation_id
    organisation_id None (Build_Session db objs []).
Proof.
  rewrite !get_locations_by_organisation_id_filter.
  apply fmap_sublist, filter_sublist_impl. by intros kr [Horg _].
Qed.

(** X9.  Widening the bounding box never loses an entry: the list under a
    box is a sublist of the list under any box that contains it. *)
Theorem bounding_box_monotone organisation_id inner outer db objs :
  box_within inner outer →
  organisations_repository.get_locations_by_organisation_id
    organisation_id (Some inner) (Build_Session db objs [])
  `sublist_of`
  organisations_repository.get_locations_by_organisation_id
    organisation_id (Some outer) (Build_Session db objs []).
Proof.
  intros Hwithin. rewrite !get_locations_by_organisation_id_filter.
  apply fmap_sublist, filter_sublist_impl.
  intros [k r] [Horg Hbox]. split; [done|]. simpl in *.
  destruct inner as [[[min_lat min_lon] max_lat] max_lon].
  destruct outer as [[[min_lat' min_lon'] max_lat'] max_lon'].
  destruct Hwithin as [[Hlat1 Hlat2] [Hlon1 Hlon2]].
  destruct Hbox as [[Hlat3 Hlat4] [Hlon3 Hlon4]].
  repeat split; eapply Qcle_trans; eassumption.
Qed.

Lemma bounding_box_monotone_witness :
  organisations_repository.get_locations_by_organisation_id 1
    (Some (Qc_of_Z 10, Qc_of_Z 10, Qc_of_Z 25, Qc_of_Z 25))
    (Build_Session bounding_box_store [] [])
  `sublist_of`
  organisations_repository.get_locations_by_organisation_id 1
    (Some (Qc_of_Z 0, Qc_of_Z 0, Qc_of_Z 40, Qc_of_Z 40))
    (Build_Session bounding_box_store [] []).
Proof.
  apply bounding_box_monotone.
  unfold box_within. repeat split; by apply Z2Qc_inj_le.
Defined.

(** ** Creating a location, and the list afterwards *)

(** X10.  [POST /create/locations] adds exactly one entry to the list of
    the organisation it names, when no box is given or the box contains
    the new coordinates, and none otherwise; the organisations and the
    answers about them are left as they were. *)
Theorem create_location_extends_the_list (body : CreateLocation.t) bounding_box db :
  let db' := (Depends_get_db (routes.create_location body) db).2 in
  let entry := location_entry (CreateLocation.location_name body)
                 (CreateLocation.longitude body) (CreateLocation.latitude body) in
  organisations_repository.get_locations_by_organisation_id
    (CreateLocation.organisation_id body) bounding_box (Build_Session db' [] [])
  ≡ₚ
  (if decide (admits bounding_box (CreateLocation.latitude body)
                (CreateLocation.longitude body))
   then [entry] else []) ++
  organisations_repository.get_locations_by_organisation_id
    (CreateLocation.organisation_id body) bounding_box (Build_Session db [] [])
  ∧
  organisations_repository.get_organisations (Build_Session db' [] []) =
  organisations_repository.get_organisations (Build_Session db [] [])
  ∧
  ∀ organisation_id,
    Depends_get_db (routes.get_organisation organisation_id) db' =
    ((Depends_get_db (routes.get_organisation organisation_id) db).1, db').
Proof.
  rewrite create_location_request_run. simpl. split; [|split].
  - rewrite (entries_insert _ _ _ _ _ []) by apply next_rowid_fresh.
    destruct (decide (admits bounding_box (CreateLocation.latitude body)
                        (CreateLocation.longitude body))) as [Hin|Hout].
    + by rewrite decide_True by done.
    + rewrite decide_False; [done|]. by intros [_ Hbox].
  - done.
  - intros organisation_id. by rewrite !get_organisation_run.
Qed.

(** ** Referential integrity *)

(** X11.  In a store where every location is attached to an existing
    organisation, [POST /create/locations] keeps that so exactly when the
    organisation it names exists; [POST /create] always keeps it. *)
Theorem create_location_keeps_integrity_iff (body : CreateLocation.t) db :
  referential_integrity db →
  (referential_integrity (Depends_get_db (routes.create_location body) db).2
   ↔ is_Some (organisation db !! CreateLocation.organisation_id body)) ∧
  ∀ body', referential_integrity
             (Depends_get_db (routes.create_organisation body') db).2.
Proof.
  intros Hintegrity. split.
  - rewrite create_location_request_run. unfold referential_integrity. simpl.
    rewrite map_Forall_insert by apply next_rowid_fresh. simpl.
    split; [by intros [? _]|]. by intros ?.
  - intros body'. rewrite create_organisation_request_run.
    unfold referential_integrity. simpl.
    intros k r Hr. apply lookup_insert_is_Some'. right.
    by apply (Hintegrity k r).
Qed.

Lemma create_location_keeps_integrity_witness :
  (referential_integrity
     (Depends_get_db
        (routes.create_location
           (CreateLocation.Build 7 "Depot" (Qc_of_Z 4) (Qc_of_Z 52)))
        bounding_box_store).2
   ↔ is_Some (organisation bounding_box_store !! 7)) ∧
  ∀ body', referential_integrity
             (Depends_get_db (routes.create_organisation body') bounding_box_store).2.
Proof.
  apply (create_location_keeps_integrity_iff
           (CreateLocation.Build 7 "Depot" (Qc_of_Z 4) (Qc_of_Z 52))
           bounding_box_store).
  apply (bool_decide_unpack (referential_integrity bounding_box_store)).
  by vm_compute.
Defined.

(** ** Sequences of requests *)

(** X12.  No sequence of requests changes or removes a stored row: every
    organisation and every location of the store is there afterwards,
    under the same id and with the same columns. *)
Theorem serve_keeps_every_row (requests : list request) db :
  organisation db ⊆ organisation (serve requests db).2 ∧
  location db ⊆ location (serve requests db).2.
Proof.
  revert db. induction requests as [|req requests IH]; intros db; [done|].
  rewrite serve_cons. simpl.
  destruct (IH (router req db).2) as [IHo IHl].
  assert (organisation db ⊆ organisation (router req db).2 ∧
          location db ⊆ location (router req db).2) as [Ho Hl].
  { rewrite router_store. destruct req; simpl; split; try done;
      apply insert_subseteq, next_rowid_fresh. }
  split; etrans; eassumption.
Qed.

(** X13.  Every creation inserts one row, identical payloads included:
    after a sequence of requests each table has as many rows more as the
    sequence has creations for it, and the reads add none. *)
Theorem serve_counts_the_creations (requests : list request) db :
  size (organisation (serve requests db).2) =
    (size (organisation db) +
     length (filter (λ req, creates_organisation req = true) requests))%nat ∧
  size (location (serve requests db).2) =
    (size (location db) +
     length (filter (λ req, creates_location req = true) requests))%nat.
Proof.
  revert db. induction requests as [|req requests IH]; intros db.
  - simpl. lia.
  - rewrite serve_cons. cbn [snd].
    destruct (IH (router req db).2) as [-> ->].
    rewrite router_store, !filter_cons.
    destruct req; simpl;
      rewrite ?(map_size_insert_None _ _ _ (next_rowid_fresh _)); lia.
Qed.

(** X14.  The routes raise one [HTTPException] only: in any sequence of
    requests, a response that is an [HTTPException] is the 404 "Organisation
    not found", and the request it answers is a [GET /{organisation_id}].
    (Failures of the store are not of that kind and are not spoken of.) *)
Theorem serve_raises_the_404_only (requests : list request) db :
  Forall2
    (λ req response,
       ∀ status_code detail,
         response = Raised (HTTPException status_code detail) →
         status_code = 404 ∧ detail = "Organisation not found" ∧
         ∃ organisation_id, req = GetOrganisation organisation_id)
    requests (serve requests db).1.
Proof.
  revert db. induction requests as [|req requests IH]; intros db;
    [by constructor|].
  rewrite serve_cons. cbn [fst]. constructor; [|apply IH].
  intros status_code detail.
  destruct req; unfold router, prod_map.
  - by rewrite create_organisation_request_run.
  - done.
  - rewrite get_organisation_run. simpl.
    destruct (organisation db !! organisation_id); simpl; [done|].
    intros [= <- <-]. eauto.
  - by rewrite create_location_request_run.
  - by rewrite get_organisation_locations_run.
Qed.

(** X15.  When every location is created for an organisation that exists
    at that moment, a sequence of requests keeps every location attached to
    an existing organisation, and then an id without an organisation has
    an empty list of locations. *)
Theorem serve_keeps_integrity (requests : list request) db :
  referential_integrity db →
  addressed requests db →
  referential_integrity (serve requests db).2 ∧
  ∀ organisation_id bounding_box,
    organisation (serve requests db).2 !! organisation_id = None →
    router (GetOrganisationLocations organisation_id bounding_box)
      (serve requests db).2 =
    (Returned (Entries []), (serve requests db).2).
Proof.
  intros Hintegrity Haddressed.
  assert (referential_integrity (serve requests db).2) as Hfinal.
  { revert db Hintegrity Haddressed.
    induction requests as [|req requests IH]; intros db Hintegrity Haddressed;
      [done|].
    destruct Haddressed as [Hreq Hrest]. rewrite serve_cons. cbn [snd]. apply IH; [|done].
    rewrite router_store. destruct req; try done.
    - intros k r Hr. apply lookup_insert_is_Some'. right.
      by apply (Hintegrity k r).
    - unfold referential_integrity. simpl.
      apply map_Forall_insert; [apply next_rowid_fresh|]. by split. }
  split; [done|].
  intros organisation_id bounding_box Habsent.
  unfold router, prod_map. rewrite get_organisation_locations_run. simpl.
  rewrite get_locations_by_organisation_id_filter, filter_none; [done|].
  intros [k r] Hin%elem_of_map_to_list [Horg _]. simpl in *.
  destruct (Hfinal k r Hin) as [name Hname]. simpl in Hname.
  rewrite Horg in Hname. congruence.
Qed.

Lemma serve_keeps_integrity_witness :
  referential_integrity (serve requests_of_the_test empty_database).2 ∧
  ∀ organisation_id bounding_box,
    organisation (serve requests_of_the_test empty_database).2 !! organisation_id
    = None →
    router (GetOrganisationLocations organisation_id bounding_box)
      (serve requests_of_the_test empty_database).2 =
    (Returned (Entries []), (serve requests_of_the_test empty_database).2).
Proof.
  apply (serve_keeps_integrity requests_of_the_test empty_database).
  - apply (bool_decide_unpack (referential_integrity empty_database)).
    by vm_compute.
  - apply (bool_decide_unpack (addressed requests_of_the_test empty_database)).
    by vm_compute.
Defined.
